(** * Fill-extrusion rendering: [src/render/draw_fill_extrusion.js]

    A shallow embedding of the two-pass fill-extrusion renderer.  The
    JavaScript mutates two objects, the painter (with its GL context) and
    the style layer (its cached [viewportFrame]); both are passed
    explicitly here.  Every call the functions make on a collaborator
    whose code lives in another module (the GL context, programs,
    textures, the pattern module) is appended, in order, to the context's
    call log, so that "what was drawn, uploaded, cleared or allocated" is
    a property of that log.

    Exceptions.  Two names are read where nothing declares them.  [draw]
    reads [gl.LEQUAL] (line 38), and [gl] is declared only inside the three
    other functions (lines 52, 84 and 109).  [drawExtrusion] reads
    [fillExtrusionPatternUniforms] (line 118), whose import is commented
    out (line 14).  Reading an undeclared name raises a [ReferenceError];
    a function therefore either returns or raises, and in both cases
    leaves the painter and the layer in the state they had at that point.

    Numbers.  Pixel sizes, tile zoom levels and tile sizes are integers
    ([Z]).  Paint values and the map zoom are only compared or handed on
    and are rationals ([Q]); the light's numbers and the bearing are only handed
    on or negated and are reals ([R]).  What gl-matrix computes from them
    is kept as the call that computes it. *)

From Stdlib Require Import List Bool Arith ZArith QArith String Lia.
From Stdlib Require Import Reals.
Import ListNotations.

Open Scope Z_scope.

(** ** GL constants and pipeline modes *)

Inductive GLenum : Type :=
| LEQUAL | ALWAYS | TRIANGLES | TRIANGLE_STRIP | RGBA | LINEAR
| CLAMP_TO_EDGE | TEXTURE0 | TEXTURE_2D.

Definition Handle : Type := nat.

Inductive DepthMask : Type := ReadOnly | ReadWrite.

(** [new DepthMode(func, mask, range)], and the constant
    [DepthMode.disabled] declared in [gl/depth_mode]. *)
Inductive DepthMode : Type :=
| mkDepthMode (func : GLenum) (mask : DepthMask) (range : Z * Z)
| DepthMode_disabled.

(** Modes of [gl/stencil_mode]; [StencilMode_disabled] is the value
    [StencilMode.disabled] that [drawExtrusionTexture] passes on (line
    87). *)
Inductive StencilMode : Type :=
| StencilMode_disabled
| mkStencilMode (ref mask : Z).

Inductive ColorMode : Type :=
| ColorMode_unblended
| ColorMode_alphaBlended
| ColorMode_other (tag : nat).

Inductive RenderPass : Type := offscreen | opaque | translucent.

Inductive Anchor : Type := anchor_map | anchor_viewport.

(** ** Style data *)

(** [CrossFaded<string>], the value of the ['fill-extrusion-pattern']
    paint property when it is set. *)
Record CrossFaded : Type := mkCrossFaded {
  from : string;
  to : string
}.

Record Paint : Type := mkPaint {
  fill_extrusion_opacity : Q;
  fill_extrusion_pattern : option CrossFaded;
  fill_extrusion_translate : Q * Q;
  fill_extrusion_translate_anchor : Anchor
}.

(** The object returned by [context.createFramebuffer(width, height)]. *)
Record RenderTarget : Type := mkRenderTarget {
  framebuffer : Handle;
  rtWidth : Z;
  rtHeight : Z;
  colorAttachment : option Handle;
  depthAttachment : option Handle
}.

Record Layer : Type := mkLayer {
  id : string;
  paint : Paint;
  viewportFrame : option RenderTarget
}.

(** [style-spec/util/color]: red, green, blue and alpha. *)
Record Color : Type := mkColor {
  color_r : R;
  color_g : R;
  color_b : R;
  color_a : R
}.

Record Light : Type := mkLight {
  light_anchor : Anchor;
  light_position : R * R * R;
  light_color : Color;
  light_intensity : R
}.

(** ** Tiles, buckets and programs *)

Record OverscaledTileID : Type := mkTileID {
  overscaledZ : Z;
  wrap : Z;
  canonicalZ : Z;
  canonicalX : Z;
  canonicalY : Z
}.

Record ProgramConfiguration : Type := mkProgramConfiguration {
  cacheKey : string
}.

Record Bucket : Type := mkBucket {
  programConfigurations : string -> ProgramConfiguration;
  layoutVertexBuffer : Handle;
  indexBuffer : Handle;
  segments : Handle
}.

Record Tile : Type := mkTile {
  tileSize : Z;
  getBucket : string -> option Bucket
}.

Record SourceCache : Type := mkSourceCache {
  getTile : OverscaledTileID -> Tile
}.

(** A [Program]; its field [program] is the WebGLProgram handle that the
    context remembers as the program in use. *)
Record Program : Type := mkProgram {
  program : Handle
}.

(** The uniform table this file imports from
    [program/fill_extrusion_program] (line 14). *)
Inductive UniformTable : Type :=
| fillExtrusionUniforms.

(** ** Uniform values *)

(** Matrices are produced by collaborators ([coord.posMatrix],
    [painter.translatePosMatrix], gl-matrix's [mat4.ortho]); they are kept
    as the call that produced them. *)
Inductive Matrix : Type :=
| posMatrix (coord : OverscaledTileID)
| translatePosMatrix (m : Matrix) (tile : Tile) (translate : Q * Q)
    (translateAnchor : Anchor)
| mat4_ortho (left right bottom top near far : Z).

(** gl-matrix's [mat3.create()] and [mat3.fromRotation(out, rad)]. *)
Inductive Mat3 : Type :=
| mat3_create
| mat3_fromRotation (rad : R).

(** [UTransformMat3 a m] is the vector [vec3.transformMat3(out, a, m)]
    leaves in [out]. *)
Inductive UniformValue : Type :=
| UMatrix (m : Matrix)
| UVec3 (v : R * R * R)
| UTransformMat3 (a : R * R * R) (m : Mat3)
| UReal (v : R).

(** One member of an object literal passed to [boundUniforms.set]. *)
Inductive UniformEntry : Type :=
| Uniform (name : string) (v : UniformValue).

(** ** The call log *)

Inductive ClearArg : Type :=
| clear_depth (d : Z)
| clear_color_transparent.

Inductive Call : Type :=
| SetupOffscreenDepthRenderbuffer
| CreateRenderbuffer (rbo : Handle) (w h : Z)
| NewTexture (tex : Handle) (w h : Z) (format : GLenum)
| TextureBind (tex : Handle) (filter wrapMode : GLenum)
| CreateFramebuffer (fbo : Handle) (w h : Z)
| ColorAttachmentSet (fbo tex : Handle)
| BindFramebufferSet (fbo : Handle)
| DepthAttachmentSet (fbo : Handle) (rbo : option Handle)
| Clear (what : ClearArg)
| UseProgram (name : string) (pc : option ProgramConfiguration)
    (uniforms : option UniformTable)
| SetStencilMode (m : StencilMode)
| SetDepthMode (m : DepthMode)
| SetColorMode (m : ColorMode)
| ActiveTextureSet (unit : GLenum)
| BindTexture (target : GLenum) (tex : option Handle)
| Uniform1f (name : string) (v : Q)
| Uniform1i (name : string) (v : Z)
| UniformMatrix4fv (name : string) (m : Matrix)
| Uniform2f (name : string) (x y : Z)
| ViewportVAOBind (prog : Program)
| DrawArrays (mode : GLenum) (first count : Z)
| SetUniforms (pc : ProgramConfiguration) (prog : Program) (zoom : Q)
| BoundUniformsSet (prog : Program) (values : list UniformEntry)
| ProgramDraw (prog : Program) (mode : GLenum) (depthMode : DepthMode)
    (stencilMode : StencilMode) (colorMode : ColorMode) (layerId : string)
    (vertexBuffer indexBuf segs : Handle) (zoom : Q)
    (pc : ProgramConfiguration).

(** ** Painter and context *)

Record Context : Type := mkContext {
  context_program : option Handle;
  context_bindFramebuffer : option Handle;
  drawingBufferWidth : Z;
  drawingBufferHeight : Z;
  nextHandle : Handle;
  calls : list Call
}.

Record Painter : Type := mkPainter {
  renderPass : RenderPass;
  width : Z;
  height : Z;
  depthRbo : option Handle;
  depthRboNeedsClear : bool;
  transform_angle : R;
  transform_zoom : Q;
  style_light : Light;
  programCache : string -> option ProgramConfiguration -> Program;
  colorModes : RenderPass -> ColorMode;
  patternMissing : CrossFaded -> bool;
  context : Context
}.

(** *** Field updates *)

Definition ctx_emit (c : Call) (ctx : Context) : Context :=
  mkContext (context_program ctx) (context_bindFramebuffer ctx)
    (drawingBufferWidth ctx) (drawingBufferHeight ctx) (nextHandle ctx)
    (calls ctx ++ [c]).

Definition ctx_set_program (h : Handle) (ctx : Context) : Context :=
  mkContext (Some h) (context_bindFramebuffer ctx)
    (drawingBufferWidth ctx) (drawingBufferHeight ctx) (nextHandle ctx)
    (calls ctx).

Definition ctx_set_bindFramebuffer (h : Handle) (ctx : Context) : Context :=
  mkContext (context_program ctx) (Some h)
    (drawingBufferWidth ctx) (drawingBufferHeight ctx) (nextHandle ctx)
    (calls ctx).

Definition ctx_fresh (ctx : Context) : Handle * Context :=
  (nextHandle ctx,
   mkContext (context_program ctx) (context_bindFramebuffer ctx)
     (drawingBufferWidth ctx) (drawingBufferHeight ctx) (S (nextHandle ctx))
     (calls ctx)).

Definition with_context (p : Painter) (ctx : Context) : Painter :=
  mkPainter (renderPass p) (width p) (height p) (depthRbo p)
    (depthRboNeedsClear p) (transform_angle p) (transform_zoom p)
    (style_light p) (programCache p) (colorModes p) (patternMissing p) ctx.

Definition with_depthRbo (p : Painter) (rbo : option Handle) : Painter :=
  mkPainter (renderPass p) (width p) (height p) rbo
    (depthRboNeedsClear p) (transform_angle p) (transform_zoom p)
    (style_light p) (programCache p) (colorModes p) (patternMissing p)
    (context p).

Definition with_depthRboNeedsClear (p : Painter) (b : bool) : Painter :=
  mkPainter (renderPass p) (width p) (height p) (depthRbo p)
    b (transform_angle p) (transform_zoom p)
    (style_light p) (programCache p) (colorModes p) (patternMissing p)
    (context p).

Definition with_renderPass (p : Painter) (rp : RenderPass) : Painter :=
  mkPainter rp (width p) (height p) (depthRbo p)
    (depthRboNeedsClear p) (transform_angle p) (transform_zoom p)
    (style_light p) (programCache p) (colorModes p) (patternMissing p)
    (context p).

Definition emit (c : Call) (p : Painter) : Painter :=
  with_context p (ctx_emit c (context p)).

Definition fresh (p : Painter) : Handle * Painter :=
  let '(h, ctx) := ctx_fresh (context p) in (h, with_context p ctx).

Definition with_viewportFrame (l : Layer) (rt : option RenderTarget) : Layer :=
  mkLayer (id l) (paint l) rt.

Definition rt_set_colorAttachment (rt : RenderTarget) (tex : Handle)
  : RenderTarget :=
  mkRenderTarget (framebuffer rt) (rtWidth rt) (rtHeight rt) (Some tex)
    (depthAttachment rt).

Definition rt_set_depthAttachment (rt : RenderTarget) (rbo : option Handle)
  : RenderTarget :=
  mkRenderTarget (framebuffer rt) (rtWidth rt) (rtHeight rt)
    (colorAttachment rt) rbo.

(** ** Collaborators of the painter *)

(** Modelled from the spec: [painter.colorModeForRenderPass] lives in
    [render/painter]; the spec calls its result "the active color blend
    mode", chosen by the painter for the pass being rendered. *)
Definition colorModeForRenderPass (p : Painter) : ColorMode :=
  colorModes p (renderPass p).

(** Modelled from the spec: [painter.useProgram] lives in [render/painter].
    It resolves the program for a name and a program configuration
    (section 4.3, step 2) and leaves it as the context's program in use,
    which is what the next call reads back as the previous program
    (step 3). *)
Definition useProgram (p : Painter) (name : string)
    (pc : option ProgramConfiguration) (uniforms : option UniformTable)
  : Program * Painter :=
  let prog := programCache p name pc in
  (prog,
   with_context p
     (ctx_set_program (program prog)
        (ctx_emit (UseProgram name pc uniforms) (context p)))).

(** Modelled from the spec: [painter.setupOffscreenDepthRenderbuffer] lives
    in [render/painter].  The depth buffer is one resource shared by all
    layers (section 3), created when it does not exist yet; the call does
    not touch the needs-clear flag. *)
Definition setupOffscreenDepthRenderbuffer (p : Painter) : Painter :=
  let p := emit SetupOffscreenDepthRenderbuffer p in
  match depthRbo p with
  | Some _ => p
  | None =>
      let '(rbo, p) := fresh p in
      with_depthRbo (emit (CreateRenderbuffer rbo (width p) (height p)) p)
        (Some rbo)
  end.

(** Modelled from the spec: [pattern.isPatternMissing(image, painter)]
    lives in [render/pattern]; it tells whether the image is not yet
    resident in the atlas the painter holds. *)
Definition isPatternMissing (image : CrossFaded) (p : Painter) : bool :=
  patternMissing p image.

(** ** Exceptions *)

Inductive JsError : Type :=
| ReferenceError (name : string).

(** How a call ends: it returns, or it raises an exception.  In both cases
    [a] is the state it leaves behind. *)
Inductive Completion (A : Type) : Type :=
| Normal (a : A)
| Throw (e : JsError) (a : A).

Arguments Normal {A} a.
Arguments Throw {A} e a.

Definition stateOf {A : Type} (c : Completion A) : A :=
  match c with
  | Normal a => a
  | Throw _ a => a
  end.

Definition thrown {A : Type} (c : Completion A) : option JsError :=
  match c with
  | Normal _ => None
  | Throw e _ => Some e
  end.

(** ** [drawExtrusion] *)

Definition handle_neq (h : Handle) (prev : option Handle) : bool :=
  match prev with
  | Some h' => negb (Nat.eqb h h')
  | None => true
  end.

(** With a pattern whose image is in the atlas, the third argument of
    [painter.useProgram] (line 118) reads [fillExtrusionPatternUniforms],
    which nothing declares: the call is not made and the function raises.
    Without a pattern the block of lines 155 to 161 is skipped, so no run
    gets to it. *)
Definition drawExtrusion (painter : Painter) (source : SourceCache)
    (layer : Layer) (tile : Tile) (coord : OverscaledTileID)
    (bucket : Bucket) (first : bool) (depthMode : DepthMode)
    (stencilMode : StencilMode) (colorMode : ColorMode)
  : Completion Painter :=
  let image := fill_extrusion_pattern (paint layer) in
  let missing :=
    match image with
    | Some img => isPatternMissing img painter
    | None => false
    end in
  if missing then Normal painter
  else
    let prevProgram := context_program (context painter) in
    let programConfiguration := programConfigurations bucket (id layer) in
    match image with
    | Some _ =>
        Throw (ReferenceError "fillExtrusionPatternUniforms") painter
    | None =>
        let '(prog, painter) :=
          useProgram painter "fillExtrusion" (Some programConfiguration)
            (Some fillExtrusionUniforms) in
        let painter :=
          if first || handle_neq (program prog) prevProgram
          then emit (SetUniforms programConfiguration prog
                       (transform_zoom painter)) painter
          else painter in
        let light := style_light painter in
        let lightMat :=
          match light_anchor light with
          | anchor_viewport => mat3_fromRotation (- transform_angle painter)
          | anchor_map => mat3_create
          end in
        let painter :=
          emit (BoundUniformsSet prog
                  [Uniform "u_matrix"
                     (UMatrix (translatePosMatrix (posMatrix coord) tile
                        (fill_extrusion_translate (paint layer))
                        (fill_extrusion_translate_anchor (paint layer))));
                   Uniform "u_lightpos"
                     (UTransformMat3 (light_position light) lightMat);
                   Uniform "u_lightintensity"
                     (UReal (light_intensity light));
                   Uniform "u_lightcolor"
                     (UVec3 (color_r (light_color light),
                             color_g (light_color light),
                             color_b (light_color light)))])
            painter in
        Normal
          (emit (ProgramDraw prog TRIANGLES depthMode stencilMode colorMode
                   (id layer) (layoutVertexBuffer bucket)
                   (indexBuffer bucket) (segments bucket)
                   (transform_zoom painter) programConfiguration)
             painter)
    end.

(** ** [drawExtrusionTexture] *)

Definition drawExtrusionTexture (painter : Painter) (layer : Layer)
  : Painter :=
  match viewportFrame layer with
  | None => painter
  | Some renderedTexture =>
      let '(prog, painter) :=
        useProgram painter "extrusionTexture" None None in
      let painter := emit (SetStencilMode StencilMode_disabled) painter in
      let painter := emit (SetDepthMode DepthMode_disabled) painter in
      let painter :=
        emit (SetColorMode (colorModeForRenderPass painter)) painter in
      let painter := emit (ActiveTextureSet TEXTURE0) painter in
      let painter :=
        emit (BindTexture TEXTURE_2D (colorAttachment renderedTexture))
          painter in
      let painter :=
        emit (Uniform1f "u_opacity" (fill_extrusion_opacity (paint layer)))
          painter in
      let painter := emit (Uniform1i "u_image" 0) painter in
      let matrix := mat4_ortho 0 (width painter) (height painter) 0 0 1 in
      let painter := emit (UniformMatrix4fv "u_matrix" matrix) painter in
      let painter :=
        emit (Uniform2f "u_world"
                (drawingBufferWidth (context painter))
                (drawingBufferHeight (context painter))) painter in
      let painter := emit (ViewportVAOBind prog) painter in
      emit (DrawArrays TRIANGLE_STRIP 0 4) painter
  end.

(** ** [drawToExtrusionFramebuffer] *)

Definition drawToExtrusionFramebuffer (painter : Painter) (layer : Layer)
  : Painter * Layer :=
  let renderTarget := viewportFrame layer in
  let painter :=
    if depthRboNeedsClear painter
    then setupOffscreenDepthRenderbuffer painter
    else painter in
  let '(painter, renderTarget) :=
    match renderTarget with
    | Some rt => (painter, rt)
    | None =>
        let '(texture, painter) := fresh painter in
        let painter :=
          emit (NewTexture texture (width painter) (height painter) RGBA)
            painter in
        let painter := emit (TextureBind texture LINEAR CLAMP_TO_EDGE) painter in
        let '(fbo, painter) := fresh painter in
        let painter :=
          emit (CreateFramebuffer fbo (width painter) (height painter))
            painter in
        let rt :=
          mkRenderTarget fbo (width painter) (height painter) None None in
        let painter := emit (ColorAttachmentSet fbo texture) painter in
        (painter, rt_set_colorAttachment rt texture)
    end in
  let painter :=
    with_context painter
      (ctx_set_bindFramebuffer (framebuffer renderTarget)
         (ctx_emit (BindFramebufferSet (framebuffer renderTarget))
            (context painter))) in
  let renderTarget := rt_set_depthAttachment renderTarget (depthRbo painter) in
  let painter :=
    emit (DepthAttachmentSet (framebuffer renderTarget) (depthRbo painter))
      painter in
  let painter :=
    if depthRboNeedsClear painter
    then with_depthRboNeedsClear (emit (Clear (clear_depth 1)) painter) false
    else painter in
  let painter := emit (Clear clear_color_transparent) painter in
  (painter, with_viewportFrame layer (Some renderTarget)).

(** ** [draw] *)

(** The body of [for (const coord of coords)], with the loop variable
    [first] as an argument.  A tile without a bucket is passed over (line
    36).  For a tile with one, line 38 reads [gl.LEQUAL]; [gl] is neither a
    parameter nor a local of [draw] nor a name of the module, so the read
    raises and lines 39 to 43 are not reached. *)
Fixpoint drawTiles (painter : Painter) (source : SourceCache) (layer : Layer)
    (first : bool) (coords : list OverscaledTileID) : Completion Painter :=
  match coords with
  | [] => Normal painter
  | coord :: rest =>
      let tile := getTile source coord in
      match getBucket tile (id layer) with
      | None => drawTiles painter source layer first rest
      | Some bucket => Throw (ReferenceError "gl") painter
      end
  end.

Definition draw (painter : Painter) (source : SourceCache) (layer : Layer)
    (coords : list OverscaledTileID) : Completion (Painter * Layer) :=
  if Qeq_bool (fill_extrusion_opacity (paint layer)) 0
  then Normal (painter, layer)
  else
    match renderPass painter with
    | offscreen =>
        let '(painter, layer) := drawToExtrusionFramebuffer painter layer in
        match drawTiles painter source layer true coords with
        | Normal painter => Normal (painter, layer)
        | Throw e painter => Throw e (painter, layer)
        end
    | translucent => Normal (drawExtrusionTexture painter layer, layer)
    | opaque => Normal (painter, layer)
    end.

(** ** Observing the call log *)

Definition log (p : Painter) : list Call := calls (context p).

(** The calls made between two states of the painter. *)
Definition issued (before after : Painter) : list Call :=
  skipn (List.length (log before)) (log after).

Definition isDepthClear (c : Call) : bool :=
  match c with
  | Clear (clear_depth _) => true
  | _ => false
  end.

Definition isAllocation (c : Call) : bool :=
  match c with
  | CreateRenderbuffer _ _ _ | NewTexture _ _ _ _ | CreateFramebuffer _ _ _ =>
      true
  | _ => false
  end.

Definition isProgramDraw (c : Call) : bool :=
  match c with
  | ProgramDraw _ _ _ _ _ _ _ _ _ _ _ => true
  | _ => false
  end.

Definition isDrawCall (c : Call) : bool :=
  match c with
  | ProgramDraw _ _ _ _ _ _ _ _ _ _ _ | DrawArrays _ _ _ => true
  | _ => false
  end.

Definition isUniform1f (c : Call) : bool :=
  match c with
  | Uniform1f _ _ => true
  | _ => false
  end.

(** The programs for which [programConfiguration.setUniforms] was called,
    in call order. *)
Definition uploads (cs : list Call) : list Program :=
  flat_map (fun c => match c with
                     | SetUniforms _ prog _ => [prog]
                     | _ => []
                     end) cs.

(** The values given to member [name] in the object literals passed to
    [boundUniforms.set], in call order. *)
Definition members (name : string) (es : list UniformEntry)
  : list UniformValue :=
  flat_map (fun e => match e with
                     | Uniform n v => if String.eqb n name then [v] else []
                     end) es.

Definition namedMembers (name : string) (cs : list Call)
  : list UniformValue :=
  flat_map (fun c => match c with
                     | BoundUniformsSet _ es => members name es
                     | _ => []
                     end) cs.

Definition isUseProgram (c : Call) : bool :=
  match c with
  | UseProgram _ _ _ => true
  | _ => false
  end.

Definition isBoundUniformsSet (c : Call) : bool :=
  match c with
  | BoundUniformsSet _ _ => true
  | _ => false
  end.

Definition isClear (c : Call) : bool :=
  match c with
  | Clear _ => true
  | _ => false
  end.

(** Binding the framebuffer, attaching the depth buffer, and clearing. *)
Definition isBindOrClear (c : Call) : bool :=
  match c with
  | BindFramebufferSet _ | DepthAttachmentSet _ _ | Clear _ => true
  | _ => false
  end.

Definition hasBucket (source : SourceCache) (layer : Layer)
    (coord : OverscaledTileID) : bool :=
  match getBucket (getTile source coord) (id layer) with
  | Some _ => true
  | None => false
  end.

(** The calls that allocate a layer's render target: its color texture and
    its framebuffer. *)
Definition isTargetAllocation (c : Call) : bool :=
  match c with
  | NewTexture _ _ _ _ | CreateFramebuffer _ _ _ => true
  | _ => false
  end.

(** The compositing blit, call by call. *)
Definition blitCalls (p : Painter) (layer : Layer) (rt : RenderTarget)
  : list Call :=
  [UseProgram "extrusionTexture" None None;
   SetStencilMode StencilMode_disabled;
   SetDepthMode DepthMode_disabled;
   SetColorMode (colorModeForRenderPass p);
   ActiveTextureSet TEXTURE0;
   BindTexture TEXTURE_2D (colorAttachment rt);
   Uniform1f "u_opacity" (fill_extrusion_opacity (paint layer));
   Uniform1i "u_image" 0;
   UniformMatrix4fv "u_matrix" (mat4_ortho 0 (width p) (height p) 0 0 1);
   Uniform2f "u_world" (drawingBufferWidth (context p))
     (drawingBufferHeight (context p));
   ViewportVAOBind (programCache p "extrusionTexture" None);
   DrawArrays TRIANGLE_STRIP 0 4].

(** ** Frames *)

(** One call of [draw] made by the render loop, which sets
    [painter.renderPass] before it.  The layer is given in the state it has
    when the call is made. *)
Record DrawCall : Type := mkDrawCall {
  dc_pass : RenderPass;
  dc_source : SourceCache;
  dc_layer : Layer;
  dc_coords : list OverscaledTileID
}.

(** Modelled from the spec: the render loop is in [render/painter]; within
    a frame it calls [draw] once per layer and pass, in submission order
    (section 5).  Each call starts from the painter the call before it
    left, at its return or at the point where it raised; a frame that ends
    at a raise is the list of calls up to that one. *)
Fixpoint renderFrame (painter : Painter) (frame : list DrawCall) : Painter :=
  match frame with
  | [] => painter
  | d :: rest =>
      renderFrame
        (fst (stateOf (draw (with_renderPass painter (dc_pass d))
                         (dc_source d) (dc_layer d) (dc_coords d))))
        rest
  end.

(** The call reaches [drawToExtrusionFramebuffer]. *)
Definition prepares (d : DrawCall) : bool :=
  negb (Qeq_bool (fill_extrusion_opacity (paint (dc_layer d))) 0)
  && match dc_pass d with
     | offscreen => true
     | _ => false
     end.

(** ** A sample scene

    Tiles in a row at zoom 2.  Tiles 0 to 3 carry a bucket whose program
    configuration is A, A, B and A; the others have no bucket. *)

Definition sampleCoord (x : Z) : OverscaledTileID := mkTileID 2 0 2 x 0.

Definition sampleBucket (key : string) (n : nat) : Bucket :=
  mkBucket (fun _ => mkProgramConfiguration key) n (100 + n)%nat (200 + n)%nat.

Definition sampleTile (x : Z) : Tile :=
  mkTile 512
    (fun _ =>
       match x with
       | 0 => Some (sampleBucket "A" 0%nat)
       | 1 => Some (sampleBucket "A" 1%nat)
       | 2 => Some (sampleBucket "B" 2%nat)
       | 3 => Some (sampleBucket "A" 3%nat)
       | _ => None
       end).

Definition sampleSource : SourceCache :=
  mkSourceCache (fun coord => sampleTile (canonicalX coord)).

Definition programA : Program := mkProgram 1%nat.
Definition programB : Program := mkProgram 2%nat.

Definition sampleCache (name : string) (pc : option ProgramConfiguration)
  : Program :=
  match pc with
  | Some c => if String.eqb (cacheKey c) "A" then programA else programB
  | None => mkProgram 0%nat
  end.

Definition sampleLight (anchor : Anchor) : Light :=
  mkLight anchor (1, 2, 3)%R (mkColor 1 1 1 1)%R (1 / 2)%R.

(** A painter with an 800 by 600 viewport at the start of a frame: needs
    clear is set, nothing has been called yet.  [imageMissing] tells
    whether pattern images are missing from the atlas. *)
Definition samplePainter (pass : RenderPass) (imageMissing : bool)
  : Painter :=
  mkPainter pass 800 600 None true 0%R 2 (sampleLight anchor_viewport)
    sampleCache (fun _ => ColorMode_alphaBlended)
    (fun _ => imageMissing)
    (mkContext None None 800 600 10%nat []).

(** The painter in the offscreen pass with every image in the atlas. *)
Definition offscreenPainter : Painter := samplePainter offscreen false.

Definition brick : CrossFaded := mkCrossFaded "brick" "brick".

Definition plainLayer : Layer :=
  mkLayer "buildings" (mkPaint 1 None (0, 0)%Q anchor_map) None.

Definition patternLayer : Layer :=
  mkLayer "buildings" (mkPaint 1 (Some brick) (0, 0)%Q anchor_map) None.

Definition hiddenLayer : Layer :=
  mkLayer "buildings" (mkPaint 0 None (0, 0)%Q anchor_map) None.

(** A layer whose cached target was made for a 400 by 300 viewport. *)
Definition staleTarget : RenderTarget :=
  mkRenderTarget 7%nat 400 300 (Some 6%nat) (Some 5%nat).

Definition staleLayer : Layer :=
  mkLayer "buildings" (mkPaint 1 None (0, 0)%Q anchor_map) (Some staleTarget).

Definition fourTiles : list OverscaledTileID :=
  [sampleCoord 0; sampleCoord 1; sampleCoord 2; sampleCoord 3].

Definition sampleCall (pass : RenderPass) (layer : Layer) : DrawCall :=
  mkDrawCall pass sampleSource layer fourTiles.

(** The handles of the programs the buckets of [coords] resolve to for a
    layer without a pattern. *)
Definition sampleHandles (coords : list OverscaledTileID) : list Handle :=
  flat_map (fun coord =>
              match getBucket (getTile sampleSource coord) "buildings" with
              | Some bucket =>
                  [program (sampleCache "fillExtrusion"
                              (Some (programConfigurations bucket
                                       "buildings")))]
              | None => []
              end) coords.

(** * Properties *)

(** ** The call log only grows *)

Lemma skipn_length_app {A : Type} (l d : list A) :
  skipn (List.length l) (l ++ d) = d.
Proof.
  induction l as [|a l IH]; simpl; auto.
Qed.

Lemma issued_ext (p q : Painter) (d : list Call) :
  log q = log p ++ d -> issued p q = d.
Proof.
  intros E. unfold issued. rewrite E. apply skipn_length_app.
Qed.

Lemma issued_refl (p : Painter) : issued p p = [].
Proof.
  apply issued_ext. now rewrite app_nil_r.
Qed.

Lemma log_issued (p q : Painter) (d : list Call) :
  log q = log p ++ d -> log q = log p ++ issued p q.
Proof.
  intros E. now rewrite (issued_ext _ _ _ E).
Qed.

(** Field updates nest; they are evaluated innermost first, so that the
    terms stay small. *)
Ltac painter_eval :=
  cbv [log emit fresh with_context with_depthRbo with_depthRboNeedsClear
       with_renderPass ctx_emit ctx_set_program ctx_set_bindFramebuffer
       ctx_fresh with_viewportFrame rt_set_colorAttachment
       rt_set_depthAttachment fst snd
       renderPass width height depthRbo depthRboNeedsClear transform_angle
       transform_zoom style_light programCache colorModes patternMissing
       context context_program context_bindFramebuffer drawingBufferWidth
       drawingBufferHeight nextHandle calls
       id paint viewportFrame framebuffer rtWidth rtHeight colorAttachment
       depthAttachment].

Ltac log_flat :=
  painter_eval; rewrite <- ?app_assoc; cbn [app].

(** ** The tile loop *)

(** The loop returns when no tile has a bucket and raises at the first
    tile that has one; the painter is as it was in both cases. *)
Lemma drawTiles_outcome p source layer first coords :
  drawTiles p source layer first coords
  = if existsb (hasBucket source layer) coords
    then Throw (ReferenceError "gl") p
    else Normal p.
Proof.
  induction coords as [|coord rest IH]; cbn [drawTiles existsb]; auto.
  unfold hasBucket at 1.
  destruct (getBucket (getTile source coord) (id layer)); auto.
Qed.

Lemma drawTiles_state p source layer first coords :
  stateOf (drawTiles p source layer first coords) = p.
Proof.
  rewrite drawTiles_outcome.
  now destruct (existsb (hasBucket source layer) coords).
Qed.

(** ** Preparing the offscreen target *)

Ltac prepare_cases p l :=
  unfold drawToExtrusionFramebuffer, setupOffscreenDepthRenderbuffer, issued;
  destruct p as [?rp ?w ?h [?rbo|] [|] ?angle ?zoom ?light ?cache ?modes
                   ?missing [?prog ?bound ?dbw ?dbh ?next ?cs]];
  destruct l as [?lid ?lpaint [?rt|]];
  painter_eval; rewrite <- ?app_assoc; cbn [app];
  rewrite ?skipn_length_app.

Lemma prepare_log p l :
  log (fst (drawToExtrusionFramebuffer p l))
  = log p ++ issued p (fst (drawToExtrusionFramebuffer p l)).
Proof.
  prepare_cases p l; reflexivity.
Qed.

Lemma prepare_flag p l :
  depthRboNeedsClear (fst (drawToExtrusionFramebuffer p l)) = false.
Proof.
  prepare_cases p l; auto.
Qed.

Lemma prepare_clears p l :
  filter isDepthClear (issued p (fst (drawToExtrusionFramebuffer p l)))
  = if depthRboNeedsClear p then [Clear (clear_depth 1)] else [].
Proof.
  prepare_cases p l; reflexivity.
Qed.

(** The preparation selects no program, sets no uniform and draws
    nothing. *)
Lemma prepare_no_draw p l :
  filter isDrawCall (issued p (fst (drawToExtrusionFramebuffer p l))) = []
  /\ filter isProgramDraw
       (issued p (fst (drawToExtrusionFramebuffer p l))) = []
  /\ uploads (issued p (fst (drawToExtrusionFramebuffer p l))) = []
  /\ filter isBoundUniformsSet
       (issued p (fst (drawToExtrusionFramebuffer p l))) = []
  /\ filter isUseProgram
       (issued p (fst (drawToExtrusionFramebuffer p l))) = [].
Proof.
  prepare_cases p l; repeat split; reflexivity.
Qed.

Lemma prepare_layer p l :
  id (snd (drawToExtrusionFramebuffer p l)) = id l
  /\ paint (snd (drawToExtrusionFramebuffer p l)) = paint l.
Proof.
  prepare_cases p l; split; reflexivity.
Qed.

Lemma prepare_hasBucket p l source coords :
  existsb (hasBucket source (snd (drawToExtrusionFramebuffer p l))) coords
  = existsb (hasBucket source l) coords.
Proof.
  prepare_cases p l; reflexivity.
Qed.

Lemma prepare_static p l :
  renderPass (fst (drawToExtrusionFramebuffer p l)) = renderPass p
  /\ width (fst (drawToExtrusionFramebuffer p l)) = width p
  /\ height (fst (drawToExtrusionFramebuffer p l)) = height p
  /\ transform_angle (fst (drawToExtrusionFramebuffer p l))
     = transform_angle p
  /\ transform_zoom (fst (drawToExtrusionFramebuffer p l)) = transform_zoom p
  /\ style_light (fst (drawToExtrusionFramebuffer p l)) = style_light p.
Proof.
  prepare_cases p l; repeat split.
Qed.

(** A layer that holds a target keeps it: same framebuffer, same size, same
    color texture, and nothing is allocated for it. *)
Lemma prepare_reuse p l rt :
  viewportFrame l = Some rt ->
  viewportFrame (snd (drawToExtrusionFramebuffer p l))
  = Some (rt_set_depthAttachment rt
            (depthRbo (fst (drawToExtrusionFramebuffer p l))))
  /\ filter isTargetAllocation
       (issued p (fst (drawToExtrusionFramebuffer p l))) = [].
Proof.
  intros H. revert H. prepare_cases p l; intros H;
    try discriminate; injection H as <-; split; reflexivity.
Qed.

(** A layer that holds no target gets one of the size of the viewport, made
    of a texture and a framebuffer that did not exist before. *)
Lemma prepare_create p l :
  viewportFrame l = None ->
  exists tex fbo : Handle,
    viewportFrame (snd (drawToExtrusionFramebuffer p l))
    = Some (mkRenderTarget fbo (width p) (height p) (Some tex)
              (depthRbo (fst (drawToExtrusionFramebuffer p l))))
    /\ filter isTargetAllocation
         (issued p (fst (drawToExtrusionFramebuffer p l)))
       = [NewTexture tex (width p) (height p) RGBA;
          CreateFramebuffer fbo (width p) (height p)]
    /\ (nextHandle (context p) <= tex)%nat
    /\ (tex < fbo)%nat
    /\ (fbo < nextHandle (context (fst (drawToExtrusionFramebuffer p l))))%nat.
Proof.
  intros H. revert H. prepare_cases p l; intros H; try discriminate;
    eexists _, _; repeat split; lia.
Qed.

(** ** The compositing blit *)

Lemma drawExtrusionTexture_issued p layer :
  issued p (drawExtrusionTexture p layer)
  = match viewportFrame layer with
    | Some rt => blitCalls p layer rt
    | None => []
    end.
Proof.
  unfold drawExtrusionTexture.
  destruct (viewportFrame layer) as [rt|].
  - unfold issued, useProgram, colorModeForRenderPass. log_flat.
    rewrite skipn_length_app. reflexivity.
  - apply issued_refl.
Qed.

(** The compositing blit changes the context's program in use and the call
    log, and nothing else. *)
Lemma drawExtrusionTexture_frame p layer :
  drawExtrusionTexture p layer
  = match viewportFrame layer with
    | Some rt =>
        with_context p
          (mkContext
             (Some (program (programCache p "extrusionTexture" None)))
             (context_bindFramebuffer (context p))
             (drawingBufferWidth (context p))
             (drawingBufferHeight (context p))
             (nextHandle (context p))
             (log p ++ blitCalls p layer rt))
    | None => p
    end.
Proof.
  unfold drawExtrusionTexture, blitCalls.
  destruct (viewportFrame layer) as [rt|]; auto.
  unfold useProgram, colorModeForRenderPass. log_flat. reflexivity.
Qed.

Lemma drawExtrusionTexture_log p layer :
  log (drawExtrusionTexture p layer)
  = log p ++ issued p (drawExtrusionTexture p layer).
Proof.
  rewrite drawExtrusionTexture_issued, drawExtrusionTexture_frame.
  destruct (viewportFrame layer); [reflexivity|now rewrite app_nil_r].
Qed.

(** ** The entry point *)

Lemma draw_hidden p source layer coords :
  Qeq_bool (fill_extrusion_opacity (paint layer)) 0 = true ->
  draw p source layer coords = Normal (p, layer).
Proof.
  unfold draw. intros E. now rewrite E.
Qed.

(** An offscreen pass of a layer that is not fully transparent prepares the
    target and then returns if no tile has a bucket, and raises at the
    first tile that has one. *)
Lemma draw_offscreen p source layer coords :
  Qeq_bool (fill_extrusion_opacity (paint layer)) 0 = false ->
  renderPass p = offscreen ->
  draw p source layer coords
  = if existsb (hasBucket source layer) coords
    then Throw (ReferenceError "gl") (drawToExtrusionFramebuffer p layer)
    else Normal (drawToExtrusionFramebuffer p layer).
Proof.
  unfold draw. intros E1 E2. rewrite E1, E2.
  rewrite <- (prepare_hasBucket p layer source coords).
  destruct (drawToExtrusionFramebuffer p layer) as [p1 l1].
  rewrite drawTiles_outcome. cbn [snd].
  now destruct (existsb (hasBucket source l1) coords).
Qed.

Lemma draw_offscreen_state p source layer coords :
  Qeq_bool (fill_extrusion_opacity (paint layer)) 0 = false ->
  renderPass p = offscreen ->
  stateOf (draw p source layer coords) = drawToExtrusionFramebuffer p layer.
Proof.
  intros E1 E2. rewrite draw_offscreen by assumption.
  now destruct (existsb (hasBucket source layer) coords).
Qed.

Lemma draw_translucent p source layer coords :
  Qeq_bool (fill_extrusion_opacity (paint layer)) 0 = false ->
  renderPass p = translucent ->
  draw p source layer coords = Normal (drawExtrusionTexture p layer, layer).
Proof.
  unfold draw. intros E1 E2. now rewrite E1, E2.
Qed.

Lemma draw_opaque p source layer coords :
  renderPass p = opaque -> draw p source layer coords = Normal (p, layer).
Proof.
  unfold draw. intros E. rewrite E.
  now destruct (Qeq_bool _ _).
Qed.

Lemma draw_log p source layer coords :
  log (fst (stateOf (draw p source layer coords)))
  = log p ++ issued p (fst (stateOf (draw p source layer coords))).
Proof.
  destruct (Qeq_bool (fill_extrusion_opacity (paint layer)) 0) eqn:E1.
  - rewrite draw_hidden by assumption. cbn [stateOf fst].
    now rewrite issued_refl, app_nil_r.
  - destruct (renderPass p) eqn:E2.
    + rewrite draw_offscreen_state by assumption. apply prepare_log.
    + rewrite draw_opaque by assumption. cbn [stateOf fst].
      now rewrite issued_refl, app_nil_r.
    + rewrite draw_translucent by assumption. cbn [stateOf fst].
      apply drawExtrusionTexture_log.
Qed.

(** ** Frames *)

Lemma draw_flag p source layer coords :
  let reaches :=
    (negb (Qeq_bool (fill_extrusion_opacity (paint layer)) 0)
     && match renderPass p with offscreen => true | _ => false end)%bool in
  filter isDepthClear (issued p (fst (stateOf (draw p source layer coords))))
  = (if (reaches && depthRboNeedsClear p)%bool
     then [Clear (clear_depth 1)] else [])
  /\ depthRboNeedsClear (fst (stateOf (draw p source layer coords)))
     = (depthRboNeedsClear p && negb reaches)%bool.
Proof.
  intros reaches. subst reaches.
  destruct (Qeq_bool (fill_extrusion_opacity (paint layer)) 0) eqn:E1.
  - rewrite draw_hidden by assumption. cbn [stateOf fst negb andb].
    rewrite issued_refl, andb_true_r. auto.
  - destruct (renderPass p) eqn:E2; cbn [negb andb].
    + rewrite draw_offscreen_state by assumption.
      rewrite prepare_clears, prepare_flag.
      now rewrite andb_false_r.
    + rewrite draw_opaque by assumption. cbn [stateOf fst].
      rewrite issued_refl, andb_true_r. auto.
    + rewrite draw_translucent by assumption. cbn [stateOf fst].
      rewrite drawExtrusionTexture_issued, drawExtrusionTexture_frame.
      rewrite andb_true_r. now destruct (viewportFrame layer).
Qed.

Lemma renderFrame_app p frame1 frame2 :
  renderFrame p (frame1 ++ frame2) = renderFrame (renderFrame p frame1) frame2.
Proof.
  revert p. induction frame1 as [|d rest IH]; intros p; simpl; auto.
Qed.

Lemma renderFrame_log p frame :
  log (renderFrame p frame) = log p ++ issued p (renderFrame p frame).
Proof.
  revert p. induction frame as [|d rest IH]; intros p.
  - simpl. now rewrite issued_refl, app_nil_r.
  - cbn [renderFrame].
    set (p1 := fst (stateOf (draw (with_renderPass p (dc_pass d))
                               (dc_source d) (dc_layer d) (dc_coords d)))).
    apply (log_issued _ _
             (issued (with_renderPass p (dc_pass d)) p1
              ++ issued p1 (renderFrame p1 rest))).
    rewrite IH. subst p1. rewrite draw_log at 1.
    rewrite <- app_assoc. reflexivity.
Qed.

Lemma renderFrame_cons_issued p d rest :
  let p1 := fst (stateOf (draw (with_renderPass p (dc_pass d)) (dc_source d)
                            (dc_layer d) (dc_coords d))) in
  issued p (renderFrame p (d :: rest))
  = issued (with_renderPass p (dc_pass d)) p1
    ++ issued p1 (renderFrame p1 rest).
Proof.
  intros p1. cbn [renderFrame]. fold p1. apply issued_ext.
  rewrite renderFrame_log. subst p1. rewrite draw_log at 1.
  rewrite <- app_assoc. reflexivity.
Qed.

(** Within a frame the depth buffer is cleared by the first call that
    reaches the preparation of a target, if the flag is set, and by no
    other. *)
Lemma renderFrame_flag p frame :
  filter isDepthClear (issued p (renderFrame p frame))
  = (if (depthRboNeedsClear p && existsb prepares frame)%bool
     then [Clear (clear_depth 1)] else [])
  /\ depthRboNeedsClear (renderFrame p frame)
     = (depthRboNeedsClear p && negb (existsb prepares frame))%bool.
Proof.
  revert p. induction frame as [|d rest IH]; intros p.
  - simpl. rewrite issued_refl, !andb_false_r, andb_true_r. auto.
  - rewrite renderFrame_cons_issued. cbn [renderFrame existsb].
    destruct (draw_flag (with_renderPass p (dc_pass d)) (dc_source d)
                (dc_layer d) (dc_coords d)) as [C F].
    cbn [renderPass depthRboNeedsClear with_renderPass] in C, F.
    fold (prepares d) in C, F.
    destruct (IH (fst (stateOf (draw (with_renderPass p (dc_pass d))
                                  (dc_source d) (dc_layer d)
                                  (dc_coords d))))) as [C' F'].
    rewrite filter_app, C, C', F', F.
    destruct (depthRboNeedsClear p), (prepares d), (existsb prepares rest);
      split; reflexivity.
Qed.

(** ** One tile *)

(** For a layer with a pattern [drawExtrusion] makes no call at all: it
    returns at line 112 when the image is missing, and raises at line 118
    when it is not. *)
Lemma drawExtrusion_patterned p source layer tile coord bucket first
    dm sm cm img :
  fill_extrusion_pattern (paint layer) = Some img ->
  drawExtrusion p source layer tile coord bucket first dm sm cm
  = if isPatternMissing img p then Normal p
    else Throw (ReferenceError "fillExtrusionPatternUniforms") p.
Proof.
  intros H. unfold drawExtrusion. rewrite H.
  now destruct (isPatternMissing img p).
Qed.

(** For a layer without a pattern [drawExtrusion] returns; it has selected
    the plain program, set the program-constant uniforms when [first] is
    set or the program differs from the one in use, and drawn once with
    the modes it was given. *)
Lemma drawExtrusion_plain p source layer tile coord bucket first dm sm cm :
  fill_extrusion_pattern (paint layer) = None ->
  let prog :=
    programCache p "fillExtrusion"
      (Some (programConfigurations bucket (id layer))) in
  exists p',
    drawExtrusion p source layer tile coord bucket first dm sm cm = Normal p'
    /\ context_program (context p') = Some (program prog)
    /\ uploads (issued p p')
       = (if (first || handle_neq (program prog)
                         (context_program (context p)))%bool
          then [prog] else [])
    /\ filter isDrawCall (issued p p')
       = [ProgramDraw prog TRIANGLES dm sm cm (id layer)
            (layoutVertexBuffer bucket) (indexBuffer bucket)
            (segments bucket) (transform_zoom p)
            (programConfigurations bucket (id layer))].
Proof.
  intros H prog. subst prog. unfold drawExtrusion, useProgram, issued.
  rewrite H. eexists. split; [reflexivity|].
  destruct (first || _)%bool; log_flat; rewrite skipn_length_app;
    repeat split.
Qed.

(** ** What [draw] never does *)

Lemma namedMembers_nil (name : string) (cs : list Call) :
  filter isBoundUniformsSet cs = [] -> namedMembers name cs = [].
Proof.
  unfold namedMembers.
  induction cs as [|c cs IH]; cbn [filter flat_map]; auto.
  destruct c; cbn [isBoundUniformsSet]; intros H;
    try discriminate; cbn [app]; auto.
Qed.

(** Whatever the pass and the input, [draw] selects no fill-extrusion
    program, sets no uniform of one and makes no [program._draw] call. *)
Lemma draw_no_tile_call p source layer coords :
  let cs := issued p (fst (stateOf (draw p source layer coords))) in
  filter isProgramDraw cs = []
  /\ uploads cs = []
  /\ filter isBoundUniformsSet cs = []
  /\ (filter isUseProgram cs = []
      \/ filter isUseProgram cs = [UseProgram "extrusionTexture" None None]).
Proof.
  cbv zeta.
  destruct (Qeq_bool (fill_extrusion_opacity (paint layer)) 0) eqn:E1.
  - rewrite draw_hidden by assumption. cbn [stateOf fst].
    rewrite issued_refl. repeat split. now left.
  - destruct (renderPass p) eqn:E2.
    + rewrite draw_offscreen_state by assumption.
      destruct (prepare_no_draw p layer) as (_ & H1 & H2 & H3 & H4).
      repeat split; auto.
    + rewrite draw_opaque by assumption. cbn [stateOf fst].
      rewrite issued_refl. repeat split. now left.
    + rewrite draw_translucent by assumption. cbn [stateOf fst].
      rewrite drawExtrusionTexture_issued.
      destruct (viewportFrame layer); repeat split; auto.
Qed.

(** * The claims *)

(** C1.  What the code does where the specification expects uploads: in an
    offscreen pass of a layer that is not fully transparent, as soon as a
    tile has a bucket [draw] raises the [ReferenceError] of line 38, before
    [drawExtrusion] is called; [programConfiguration.setUniforms] is not
    called at all, so not 3 times for tiles whose programs are A, A, B,
    A. *)
Theorem C1_pass_raises_before_any_upload :
  forall (p : Painter) (source : SourceCache) (layer : Layer)
         (coords : list OverscaledTileID),
    renderPass p = offscreen ->
    Qeq_bool (fill_extrusion_opacity (paint layer)) 0 = false ->
    existsb (hasBucket source layer) coords = true ->
    thrown (draw p source layer coords) = Some (ReferenceError "gl")
    /\ uploads (issued p (fst (stateOf (draw p source layer coords)))) = [].
Proof.
  intros p source layer coords Hpass Hop Hb. split.
  - rewrite draw_offscreen by assumption. now rewrite Hb.
  - apply (draw_no_tile_call p source layer coords).
Qed.

Lemma C1_sample_pass :
  sampleHandles fourTiles = [1; 1; 2; 1]%nat
  /\ thrown (draw offscreenPainter sampleSource plainLayer fourTiles)
     = Some (ReferenceError "gl")
  /\ uploads
       (issued offscreenPainter
          (fst (stateOf (draw offscreenPainter sampleSource plainLayer
                           fourTiles))))
     = [].
Proof.
  split; [reflexivity|].
  apply (C1_pass_raises_before_any_upload offscreenPainter sampleSource
           plainLayer fourTiles); reflexivity.
Defined.

(** C2.  In a frame that starts with the needs-clear flag set, the first
    call that reaches the preparation of an offscreen target clears the
    depth buffer once and leaves the flag unset; no call before it and no
    call after it, of whatever layer, clears the depth buffer, so the whole
    frame clears it exactly once. *)
Theorem C2_depth_cleared_once_per_frame :
  forall (p : Painter) (pre : list DrawCall) (d : DrawCall)
         (post : list DrawCall),
    depthRboNeedsClear p = true ->
    existsb prepares pre = false ->
    prepares d = true ->
    let p1 := renderFrame p pre in
    let p2 := renderFrame p1 [d] in
    let p3 := renderFrame p2 post in
    renderFrame p (pre ++ d :: post) = p3
    /\ depthRboNeedsClear p1 = true
    /\ filter isDepthClear (issued p p1) = []
    /\ depthRboNeedsClear p2 = false
    /\ filter isDepthClear (issued p1 p2) = [Clear (clear_depth 1)]
    /\ depthRboNeedsClear p3 = false
    /\ filter isDepthClear (issued p2 p3) = []
    /\ List.length (filter isDepthClear (issued p p3)) = 1%nat.
Proof.
  intros p pre d post Hflag Hpre Hd p1 p2 p3.
  assert (E : renderFrame p (pre ++ d :: post) = p3).
  { subst p3 p2 p1. rewrite renderFrame_app.
    change (d :: post) with ([d] ++ post). now rewrite renderFrame_app. }
  destruct (renderFrame_flag p pre) as [C1 F1]. fold p1 in C1, F1.
  rewrite Hflag, Hpre in C1, F1. cbn [andb negb] in C1, F1.
  destruct (renderFrame_flag p1 [d]) as [C2 F2]. fold p2 in C2, F2.
  rewrite F1 in C2, F2. cbn [existsb] in C2, F2. rewrite Hd in C2, F2.
  cbn [andb negb orb] in C2, F2.
  destruct (renderFrame_flag p2 post) as [C3 F3]. fold p3 in C3, F3.
  rewrite F2 in C3, F3. cbn [andb negb] in C3, F3.
  destruct (renderFrame_flag p (pre ++ d :: post)) as [C _].
  rewrite E, Hflag, existsb_app in C. cbn [existsb] in C.
  rewrite Hd, orb_true_r in C. cbn [andb orb] in C.
  repeat split; try assumption. now rewrite C.
Qed.

Lemma C2_sample_frame :
  List.length
    (filter isDepthClear
       (issued (samplePainter opaque false)
          (renderFrame (samplePainter opaque false)
             ([sampleCall offscreen hiddenLayer]
              ++ sampleCall offscreen plainLayer
                 :: [sampleCall offscreen patternLayer;
                     sampleCall translucent plainLayer]))))
  = 1%nat.
Proof.
  pose proof (C2_depth_cleared_once_per_frame
                (samplePainter opaque false)
                [sampleCall offscreen hiddenLayer]
                (sampleCall offscreen plainLayer)
                [sampleCall offscreen patternLayer;
                 sampleCall translucent plainLayer]
                eq_refl eq_refl eq_refl) as H.
  cbv zeta in H. destruct H as (E & _ & _ & _ & _ & _ & _ & H).
  rewrite E. exact H.
Defined.

(** C3 (as the code has it).  [drawToExtrusionFramebuffer] reuses the
    target a layer holds, whatever the size of the viewport: the
    framebuffer, its size and its color texture stay the same and nothing
    is allocated for it, so the handle is the same from one frame to the
    next.  It creates a target, of the size of the viewport, only for a
    layer that holds none. *)
Theorem C3_target_kept_while_cached :
  forall (p : Painter) (l : Layer),
    let p1 := fst (drawToExtrusionFramebuffer p l) in
    let l1 := snd (drawToExtrusionFramebuffer p l) in
    match viewportFrame l with
    | Some rt =>
        exists rt1,
          viewportFrame l1 = Some rt1
          /\ framebuffer rt1 = framebuffer rt
          /\ rtWidth rt1 = rtWidth rt /\ rtHeight rt1 = rtHeight rt
          /\ colorAttachment rt1 = colorAttachment rt
          /\ filter isTargetAllocation (issued p p1) = []
    | None =>
        exists rt1 tex,
          viewportFrame l1 = Some rt1
          /\ rtWidth rt1 = width p /\ rtHeight rt1 = height p
          /\ colorAttachment rt1 = Some tex
          /\ filter isTargetAllocation (issued p p1)
             = [NewTexture tex (width p) (height p) RGBA;
                CreateFramebuffer (framebuffer rt1) (width p) (height p)]
          /\ (nextHandle (context p) <= tex < framebuffer rt1)%nat
          /\ (framebuffer rt1 < nextHandle (context p1))%nat
    end
    /\ forall q : Painter,
         exists rt1 rt2,
           viewportFrame l1 = Some rt1
           /\ viewportFrame (snd (drawToExtrusionFramebuffer q l1)) = Some rt2
           /\ framebuffer rt2 = framebuffer rt1
           /\ rtWidth rt2 = rtWidth rt1 /\ rtHeight rt2 = rtHeight rt1
           /\ filter isTargetAllocation
                (issued q (fst (drawToExtrusionFramebuffer q l1))) = [].
Proof.
  intros p l p1 l1.
  assert (H1 : exists rt1, viewportFrame l1 = Some rt1).
  { subst l1. destruct (viewportFrame l) as [rt|] eqn:E.
    - destruct (prepare_reuse p l rt E) as [H _]. eauto.
    - destruct (prepare_create p l E) as (tex & fbo & H & _). eauto. }
  split.
  - destruct (viewportFrame l) as [rt|] eqn:E.
    + destruct (prepare_reuse p l rt E) as [H A].
      eexists. split; [exact H|]. repeat split. exact A.
    + destruct (prepare_create p l E) as (tex & fbo & H & A & B1 & B2 & B3).
      exists (mkRenderTarget fbo (width p) (height p) (Some tex)
                (depthRbo p1)), tex.
      split; [exact H|]. cbn [rtWidth rtHeight colorAttachment framebuffer].
      repeat split; assumption.
  - intros q. destruct H1 as [rt1 H1].
    destruct (prepare_reuse q l1 rt1 H1) as [H A].
    exists rt1. eexists. split; [exact H1|]. split; [exact H|].
    repeat split. exact A.
Qed.

(** C3, as stated, fails: with an 800 by 600 viewport and a layer whose
    cached target was made for 400 by 300, the preparation keeps the stale
    target (framebuffer 7, 400 by 300) and allocates nothing; the layer
    does not end up with a target of the size of the viewport. *)
Lemma C3_stale_target_not_recreated :
  (width offscreenPainter, height offscreenPainter) = (800, 600)
  /\ (exists rt1,
        viewportFrame
          (snd (drawToExtrusionFramebuffer offscreenPainter staleLayer))
        = Some rt1
        /\ framebuffer rt1 = 7%nat
        /\ (rtWidth rt1, rtHeight rt1) = (400, 300))
  /\ filter isTargetAllocation
       (issued offscreenPainter
          (fst (drawToExtrusionFramebuffer offscreenPainter staleLayer)))
     = []
  /\ ~ (exists rt1,
          viewportFrame
            (snd (drawToExtrusionFramebuffer offscreenPainter staleLayer))
          = Some rt1
          /\ rtWidth rt1 = width offscreenPainter
          /\ rtHeight rt1 = height offscreenPainter).
Proof.
  split; [reflexivity|]. split; [|split].
  - eexists. split; [reflexivity|]. split; reflexivity.
  - reflexivity.
  - intros (rt1 & H & W & _). vm_compute in H.
    injection H as <-. discriminate W.
Qed.

(** C4.  For a layer whose opacity is zero, [draw] returns with the painter
    and the layer as they were, whatever the render pass: no call is made,
    so nothing is drawn and nothing is allocated, in the offscreen pass as
    in the translucent one. *)
Theorem C4_zero_opacity_draws_nothing :
  forall (p : Painter) (source : SourceCache) (layer : Layer)
         (coords : list OverscaledTileID) (pass : RenderPass),
    (fill_extrusion_opacity (paint layer) == 0)%Q ->
    let p0 := with_renderPass p pass in
    draw p0 source layer coords = Normal (p0, layer)
    /\ issued p0 (fst (stateOf (draw p0 source layer coords))) = []
    /\ nextHandle (context (fst (stateOf (draw p0 source layer coords))))
       = nextHandle (context p0)
    /\ viewportFrame (snd (stateOf (draw p0 source layer coords)))
       = viewportFrame layer.
Proof.
  intros p source layer coords pass H p0.
  apply Qeq_bool_iff in H.
  rewrite (draw_hidden p0 source layer coords H). cbn [stateOf fst snd].
  rewrite issued_refl. auto.
Qed.

Lemma C4_sample_hidden_layer :
  draw (samplePainter offscreen false) sampleSource hiddenLayer fourTiles
  = Normal (samplePainter offscreen false, hiddenLayer)
  /\ draw (samplePainter translucent false) sampleSource hiddenLayer
       fourTiles
     = Normal (samplePainter translucent false, hiddenLayer).
Proof.
  split.
  - apply (C4_zero_opacity_draws_nothing (samplePainter offscreen false)
             sampleSource hiddenLayer fourTiles offscreen).
    reflexivity.
  - apply (C4_zero_opacity_draws_nothing (samplePainter translucent false)
             sampleSource hiddenLayer fourTiles translucent).
    reflexivity.
Defined.

(** C5.  What the code does where the specification expects one tile to be
    skipped: in an offscreen pass of a layer whose pattern image is
    missing, [draw] raises the [ReferenceError] of line 38 at the first
    tile with a bucket, before [drawExtrusion] tests the pattern; the pass
    ends there, with the target prepared and no draw call made. *)
Theorem C5_missing_pattern_pass_is_aborted :
  forall (p : Painter) (source : SourceCache) (layer : Layer)
         (coords : list OverscaledTileID) (img : CrossFaded),
    renderPass p = offscreen ->
    Qeq_bool (fill_extrusion_opacity (paint layer)) 0 = false ->
    fill_extrusion_pattern (paint layer) = Some img ->
    isPatternMissing img p = true ->
    existsb (hasBucket source layer) coords = true ->
    draw p source layer coords
    = Throw (ReferenceError "gl") (drawToExtrusionFramebuffer p layer)
    /\ filter isDrawCall
         (issued p (fst (stateOf (draw p source layer coords)))) = [].
Proof.
  intros p source layer coords img Hpass Hop _ _ Hb.
  rewrite draw_offscreen by assumption. rewrite Hb. split; [reflexivity|].
  cbn [stateOf]. apply prepare_no_draw.
Qed.

Lemma C5_sample_pass :
  draw (samplePainter offscreen true) sampleSource patternLayer
    [sampleCoord 0]
  = Throw (ReferenceError "gl")
      (drawToExtrusionFramebuffer (samplePainter offscreen true)
         patternLayer).
Proof.
  refine (proj1 (C5_missing_pattern_pass_is_aborted
                   (samplePainter offscreen true) sampleSource patternLayer
                   [sampleCoord 0] brick _ _ _ _ _)); reflexivity.
Defined.

(** C7.  What the code does where the specification expects the per-tile draws: an
    offscreen pass prepares the target and passes over the tiles without a
    bucket, in order; at the first tile with a bucket it raises the
    [ReferenceError] of line 38, while building the depth mode, so that
    [drawExtrusion] is never called and no draw with any depth, stencil or
    color mode is made. *)
Theorem C7_pass_raises_at_first_bucketed_tile :
  forall (p : Painter) (source : SourceCache) (layer : Layer)
         (coords : list OverscaledTileID),
    renderPass p = offscreen ->
    Qeq_bool (fill_extrusion_opacity (paint layer)) 0 = false ->
    existsb (hasBucket source layer) coords = true ->
    draw p source layer coords
    = Throw (ReferenceError "gl") (drawToExtrusionFramebuffer p layer)
    /\ filter isProgramDraw
         (issued p (fst (stateOf (draw p source layer coords)))) = [].
Proof.
  intros p source layer coords Hpass Hop Hb.
  rewrite draw_offscreen by assumption. rewrite Hb. split; [reflexivity|].
  cbn [stateOf]. apply prepare_no_draw.
Qed.

Lemma C7_sample_pass :
  draw offscreenPainter sampleSource plainLayer
    [sampleCoord 4; sampleCoord 2; sampleCoord 0]
  = Throw (ReferenceError "gl")
      (drawToExtrusionFramebuffer offscreenPainter plainLayer)
  /\ filter isProgramDraw
       (issued offscreenPainter
          (fst (stateOf (draw offscreenPainter sampleSource plainLayer
                           [sampleCoord 4; sampleCoord 2; sampleCoord 0]))))
     = [].
Proof.
  apply (C7_pass_raises_at_first_bucketed_tile offscreenPainter sampleSource
           plainLayer [sampleCoord 4; sampleCoord 2; sampleCoord 0]);
    reflexivity.
Defined.

(** C8.  For a layer without a render target [drawExtrusionTexture] returns
    with the painter as it was.  For a layer with one it selects the
    ['extrusionTexture'] program, disables the stencil and the depth test,
    sets the color mode of the pass, binds the target's color texture,
    sets the opacity uniform to the layer's opacity, sets the orthographic
    projection over the painter's width and height, and draws one triangle
    strip of 4 vertices; that is its only draw, and the opacity its only
    scalar float uniform. *)
Theorem C8_composite_blit :
  forall (p : Painter) (layer : Layer),
    match viewportFrame layer with
    | None =>
        drawExtrusionTexture p layer = p
        /\ issued p (drawExtrusionTexture p layer) = []
    | Some rt =>
        let cs := issued p (drawExtrusionTexture p layer) in
        cs = [UseProgram "extrusionTexture" None None;
              SetStencilMode StencilMode_disabled;
              SetDepthMode DepthMode_disabled;
              SetColorMode (colorModeForRenderPass p);
              ActiveTextureSet TEXTURE0;
              BindTexture TEXTURE_2D (colorAttachment rt);
              Uniform1f "u_opacity" (fill_extrusion_opacity (paint layer));
              Uniform1i "u_image" 0;
              UniformMatrix4fv "u_matrix"
                (mat4_ortho 0 (width p) (height p) 0 0 1);
              Uniform2f "u_world" (drawingBufferWidth (context p))
                (drawingBufferHeight (context p));
              ViewportVAOBind (programCache p "extrusionTexture" None);
              DrawArrays TRIANGLE_STRIP 0 4]
        /\ filter isDrawCall cs = [DrawArrays TRIANGLE_STRIP 0 4]
        /\ filter isUniform1f cs
           = [Uniform1f "u_opacity" (fill_extrusion_opacity (paint layer))]
    end.
Proof.
  intros p layer. rewrite drawExtrusionTexture_issued.
  unfold drawExtrusionTexture.
  destruct (viewportFrame layer) as [rt|]; cbv zeta; repeat split.
Qed.

(** C9.  What the code does where the specification expects [u_height_factor]: for
    a layer with a pattern [drawExtrusion] returns at once when the image
    is missing and otherwise raises the [ReferenceError] of line 118,
    before [boundUniforms.set]; in both cases the painter is as it was, so
    [u_height_factor] is not set.  Nor is it set by any call of [draw]. *)
Theorem C9_height_factor_never_set :
  forall (p : Painter) (source : SourceCache) (layer : Layer) (tile : Tile)
         (coord : OverscaledTileID) (bucket : Bucket) (first : bool)
         (dm : DepthMode) (sm : StencilMode) (cm : ColorMode)
         (img : CrossFaded),
    fill_extrusion_pattern (paint layer) = Some img ->
    drawExtrusion p source layer tile coord bucket first dm sm cm
    = (if isPatternMissing img p then Normal p
       else Throw (ReferenceError "fillExtrusionPatternUniforms") p)
    /\ namedMembers "u_height_factor"
         (issued p
            (stateOf (drawExtrusion p source layer tile coord bucket first
                        dm sm cm))) = []
    /\ forall coords,
         namedMembers "u_height_factor"
           (issued p (fst (stateOf (draw p source layer coords)))) = [].
Proof.
  intros p source layer tile coord bucket first dm sm cm img Himg.
  rewrite (drawExtrusion_patterned _ _ _ _ _ _ _ _ _ _ _ Himg).
  split; [reflexivity|]. split.
  - destruct (isPatternMissing img p); cbn [stateOf];
      now rewrite issued_refl.
  - intros coords. apply namedMembers_nil.
    apply (draw_no_tile_call p source layer coords).
Qed.

Lemma C9_sample_tile :
  (overscaledZ (sampleCoord 0), tileSize (sampleTile 0)) = (2, 512)
  /\ drawExtrusion offscreenPainter sampleSource patternLayer (sampleTile 0)
       (sampleCoord 0) (sampleBucket "A" 0) true
       (mkDepthMode LEQUAL ReadWrite (0, 1)) StencilMode_disabled
       ColorMode_alphaBlended
     = Throw (ReferenceError "fillExtrusionPatternUniforms") offscreenPainter.
Proof.
  split; [reflexivity|].
  refine (proj1 (C9_height_factor_never_set offscreenPainter sampleSource
                   patternLayer (sampleTile 0) (sampleCoord 0)
                   (sampleBucket "A" 0) true
                   (mkDepthMode LEQUAL ReadWrite (0, 1))
                   StencilMode_disabled ColorMode_alphaBlended brick _)).
  reflexivity.
Defined.

(** C10.  What the code does in the tile loop: a tile without a bucket is
    passed over with [first] as it is, but a tile with a bucket makes the
    loop raise the [ReferenceError] of line 38 whether its pattern image
    is missing or not; the loop does not go on to the next tile with
    [first] unset, it ends there with the painter as it was. *)
Theorem C10_loop_ends_at_first_bucketed_tile :
  forall (p : Painter) (source : SourceCache) (layer : Layer) (first : bool)
         (c0 c1 : OverscaledTileID) (b1 : Bucket)
         (rest : list OverscaledTileID),
    getBucket (getTile source c0) (id layer) = None ->
    getBucket (getTile source c1) (id layer) = Some b1 ->
    drawTiles p source layer first (c0 :: rest)
    = drawTiles p source layer first rest
    /\ drawTiles p source layer first (c1 :: rest)
       = Throw (ReferenceError "gl") p
    /\ (existsb (hasBucket source layer) rest = false ->
        drawTiles p source layer false rest = Normal p).
Proof.
  intros p source layer first c0 c1 b1 rest H0 H1.
  cbn [drawTiles]. rewrite H0, H1. repeat split.
  intros Hr. now rewrite drawTiles_outcome, Hr.
Qed.

Lemma C10_sample_loop :
  drawTiles (samplePainter offscreen true) sampleSource patternLayer true
    [sampleCoord 0; sampleCoord 4]
  = Throw (ReferenceError "gl") (samplePainter offscreen true)
  /\ drawTiles (samplePainter offscreen true) sampleSource patternLayer
       false [sampleCoord 4]
     = Normal (samplePainter offscreen true).
Proof.
  destruct (C10_loop_ends_at_first_bucketed_tile
              (samplePainter offscreen true) sampleSource patternLayer true
              (sampleCoord 4) (sampleCoord 0) (sampleBucket "A" 0)
              [sampleCoord 4])
    as (_ & H1 & H2).
  - reflexivity.
  - reflexivity.
  - split; [exact H1|]. apply H2. reflexivity.
Defined.

(** * Further properties *)

(** X2.  Whatever the pass and the input, [draw] makes no
    [program._draw] call, no [programConfiguration.setUniforms] call and
    no [boundUniforms.set] call, and the only program it can select is
    ['extrusionTexture'] for the blit: through [draw] no tile is ever
    drawn. *)
Theorem X2_draw_never_draws_a_tile :
  forall (p : Painter) (source : SourceCache) (layer : Layer)
         (coords : list OverscaledTileID),
    let cs := issued p (fst (stateOf (draw p source layer coords))) in
    filter isProgramDraw cs = []
    /\ uploads cs = []
    /\ filter isBoundUniformsSet cs = []
    /\ (filter isUseProgram cs = []
        \/ filter isUseProgram cs
           = [UseProgram "extrusionTexture" None None]).
Proof.
  intros p source layer coords. apply draw_no_tile_call.
Qed.

(** X9.  An offscreen pass of a layer that is not fully transparent
    returns exactly when no tile has a bucket for the layer, and otherwise
    raises the [ReferenceError] of line 38; in both cases the painter and
    the layer are left exactly as [drawToExtrusionFramebuffer] leaves
    them, with the target allocated, bound and cleared. *)
Theorem X9_offscreen_pass_outcome :
  forall (p : Painter) (source : SourceCache) (layer : Layer)
         (coords : list OverscaledTileID),
    renderPass p = offscreen ->
    Qeq_bool (fill_extrusion_opacity (paint layer)) 0 = false ->
    draw p source layer coords
    = if existsb (hasBucket source layer) coords
      then Throw (ReferenceError "gl") (drawToExtrusionFramebuffer p layer)
      else Normal (drawToExtrusionFramebuffer p layer).
Proof.
  intros p source layer coords Hpass Hop. now apply draw_offscreen.
Qed.

Lemma X9_sample_pass :
  draw offscreenPainter sampleSource plainLayer
    [sampleCoord 4; sampleCoord 5]
  = Normal (drawToExtrusionFramebuffer offscreenPainter plainLayer).
Proof.
  apply (X9_offscreen_pass_outcome offscreenPainter sampleSource plainLayer
           [sampleCoord 4; sampleCoord 5]); reflexivity.
Defined.

(** ** The target and the passes *)

(** X10.  Every preparation leaves the layer with a target, binds that
    target's framebuffer and attaches to it whatever [painter.depthRbo] is
    at that point; the clears come after both, the depth clear (when the
    flag was set) before the color clear, which is made on every call. *)
Theorem X10_bind_attach_then_clear :
  forall (p : Painter) (l : Layer),
    let p1 := fst (drawToExtrusionFramebuffer p l) in
    let l1 := snd (drawToExtrusionFramebuffer p l) in
    exists rt,
      viewportFrame l1 = Some rt
      /\ depthAttachment rt = depthRbo p1
      /\ context_bindFramebuffer (context p1) = Some (framebuffer rt)
      /\ filter isBindOrClear (issued p p1)
         = [BindFramebufferSet (framebuffer rt);
            DepthAttachmentSet (framebuffer rt) (depthRbo p1)]
           ++ (if depthRboNeedsClear p then [Clear (clear_depth 1)] else [])
           ++ [Clear clear_color_transparent].
Proof.
  intros p l. cbv zeta.
  prepare_cases p l; eexists; (split; [reflexivity|]); repeat split.
Qed.

(** X12.  A preparation that directly follows one of the same layer leaves
    the layer exactly as it is and only binds the framebuffer, attaches
    the depth buffer and clears the color: nothing is set up, allocated or
    depth-cleared again. *)
Theorem X12_preparation_repeated :
  forall (p : Painter) (l : Layer),
    let p1 := fst (drawToExtrusionFramebuffer p l) in
    let l1 := snd (drawToExtrusionFramebuffer p l) in
    snd (drawToExtrusionFramebuffer p1 l1) = l1
    /\ exists rt,
         viewportFrame l1 = Some rt
         /\ issued p1 (fst (drawToExtrusionFramebuffer p1 l1))
            = [BindFramebufferSet (framebuffer rt);
               DepthAttachmentSet (framebuffer rt) (depthRbo p1);
               Clear clear_color_transparent].
Proof.
  intros p l. cbv zeta. split.
  - prepare_cases p l; reflexivity.
  - unfold drawToExtrusionFramebuffer, setupOffscreenDepthRenderbuffer.
    destruct p as [?rp ?w ?h [?rbo|] [|] ?angle ?zoom ?light ?cache ?modes
                     ?missing [?prog ?bound ?dbw ?dbh ?next ?cs]];
      destruct l as [?lid ?lpaint [?rt|]];
      painter_eval; eexists; (split; [reflexivity|]);
      apply issued_ext; painter_eval; rewrite <- ?app_assoc; reflexivity.
Qed.

(** X13.  After an accumulation pass of a layer that is not fully
    transparent the layer holds a target, and a compositing pass of that
    layer then makes the calls of the blit, binding the color texture of
    that target: the texture the layer already had, or, for a layer that
    had no target, the texture that the accumulation pass created with the
    size of the viewport.  The compositing pass leaves the layer as it
    is. *)
Theorem X13_composite_what_was_accumulated :
  forall (p q : Painter) (source : SourceCache) (layer : Layer)
         (coords coords' : list OverscaledTileID),
    renderPass p = offscreen ->
    renderPass q = translucent ->
    Qeq_bool (fill_extrusion_opacity (paint layer)) 0 = false ->
    let l1 := snd (stateOf (draw p source layer coords)) in
    exists rt,
      viewportFrame l1 = Some rt
      /\ issued q (fst (stateOf (draw q source l1 coords')))
         = blitCalls q l1 rt
      /\ In (BindTexture TEXTURE_2D (colorAttachment rt))
           (issued q (fst (stateOf (draw q source l1 coords'))))
      /\ snd (stateOf (draw q source l1 coords')) = l1
      /\ match viewportFrame layer with
         | Some rt0 => colorAttachment rt = colorAttachment rt0
         | None =>
             exists tex,
               colorAttachment rt = Some tex
               /\ In (NewTexture tex (width p) (height p) RGBA)
                    (issued p (fst (stateOf (draw p source layer coords))))
         end.
Proof.
  intros p q source layer coords coords' Hp Hq Hop l1.
  assert (El : l1 = snd (drawToExtrusionFramebuffer p layer)).
  { subst l1. now rewrite draw_offscreen_state by assumption. }
  assert (Hop1 : Qeq_bool (fill_extrusion_opacity (paint l1)) 0 = false).
  { rewrite El, (proj2 (prepare_layer p layer)). exact Hop. }
  assert (Hblit : forall rt, viewportFrame l1 = Some rt ->
            issued q (fst (stateOf (draw q source l1 coords')))
            = blitCalls q l1 rt
            /\ In (BindTexture TEXTURE_2D (colorAttachment rt))
                 (issued q (fst (stateOf (draw q source l1 coords'))))
            /\ snd (stateOf (draw q source l1 coords')) = l1).
  { intros rt Hrt. rewrite draw_translucent by assumption.
    cbn [stateOf fst snd].
    rewrite drawExtrusionTexture_issued, Hrt.
    split; [reflexivity|]. split; [|reflexivity].
    unfold blitCalls. cbn [In]. auto 10. }
  destruct (viewportFrame layer) as [rt0|] eqn:Hvf.
  - destruct (prepare_reuse p layer rt0 Hvf) as [E _].
    rewrite <- El in E. eexists. split; [exact E|].
    destruct (Hblit _ E) as (B1 & B2 & B3). auto.
  - destruct (prepare_create p layer Hvf) as (tex & fbo & E & A & _).
    rewrite <- El in E. eexists. split; [exact E|].
    destruct (Hblit _ E) as (B1 & B2 & B3).
    repeat (split; [assumption|]).
    exists tex. split; [reflexivity|].
    rewrite draw_offscreen_state by assumption.
    apply (proj1 (filter_In isTargetAllocation _ _)).
    rewrite A. now left.
Qed.

Lemma X13_sample_frame :
  exists rt,
    viewportFrame
      (snd (stateOf (draw offscreenPainter sampleSource plainLayer
                       fourTiles)))
    = Some rt
    /\ In (BindTexture TEXTURE_2D (colorAttachment rt))
         (issued (samplePainter translucent false)
            (fst (stateOf
                    (draw (samplePainter translucent false) sampleSource
                       (snd (stateOf (draw offscreenPainter sampleSource
                                        plainLayer fourTiles)))
                       fourTiles))))
    /\ exists tex,
         colorAttachment rt = Some tex
         /\ In (NewTexture tex 800 600 RGBA)
              (issued offscreenPainter
                 (fst (stateOf (draw offscreenPainter sampleSource
                                  plainLayer fourTiles)))).
Proof.
  destruct (X13_composite_what_was_accumulated offscreenPainter
              (samplePainter translucent false) sampleSource plainLayer
              fourTiles fourTiles)
    as (rt & E & _ & B & _ & T).
  - reflexivity.
  - reflexivity.
  - reflexivity.
  - exists rt. split; [exact E|]. split; [exact B|]. exact T.
Defined.

(** X14.  Outside the offscreen pass [draw] leaves the layer as it is,
    allocates nothing and clears nothing; the needs-clear flag, the depth
    buffer and the bound framebuffer stay as they were. *)
Theorem X14_only_the_offscreen_pass_allocates :
  forall (p : Painter) (source : SourceCache) (layer : Layer)
         (coords : list OverscaledTileID),
    renderPass p <> offscreen ->
    let p1 := fst (stateOf (draw p source layer coords)) in
    snd (stateOf (draw p source layer coords)) = layer
    /\ filter isAllocation (issued p p1) = []
    /\ filter isClear (issued p p1) = []
    /\ nextHandle (context p1) = nextHandle (context p)
    /\ depthRboNeedsClear p1 = depthRboNeedsClear p
    /\ depthRbo p1 = depthRbo p
    /\ context_bindFramebuffer (context p1)
       = context_bindFramebuffer (context p).
Proof.
  intros p source layer coords Hpass p1. subst p1.
  destruct (Qeq_bool (fill_extrusion_opacity (paint layer)) 0) eqn:E1.
  - rewrite draw_hidden by assumption. cbn [stateOf fst snd].
    rewrite issued_refl. repeat split.
  - destruct (renderPass p) eqn:E2; [congruence| |].
    + rewrite draw_opaque by assumption. cbn [stateOf fst snd].
      rewrite issued_refl. repeat split.
    + rewrite draw_translucent by assumption. cbn [stateOf fst snd].
      rewrite drawExtrusionTexture_issued, drawExtrusionTexture_frame.
      destruct (viewportFrame layer); repeat split.
Qed.

Lemma X14_sample_composite :
  snd (stateOf (draw (samplePainter translucent false) sampleSource
                  staleLayer fourTiles)) = staleLayer
  /\ filter isAllocation
       (issued (samplePainter translucent false)
          (fst (stateOf (draw (samplePainter translucent false)
                           sampleSource staleLayer fourTiles)))) = [].
Proof.
  destruct (X14_only_the_offscreen_pass_allocates
              (samplePainter translucent false) sampleSource staleLayer
              fourTiles) as (H1 & H2 & _).
  - discriminate.
  - split; [exact H1 | exact H2].
Defined.

(** X15.  [draw] never changes the painter's render pass, viewport size,
    transform or light, nor the id and the paint properties of the layer,
    in any pass. *)
Theorem X15_draw_keeps_pass_viewport_and_style :
  forall (p : Painter) (source : SourceCache) (layer : Layer)
         (coords : list OverscaledTileID),
    let p1 := fst (stateOf (draw p source layer coords)) in
    let l1 := snd (stateOf (draw p source layer coords)) in
    renderPass p1 = renderPass p
    /\ (width p1, height p1) = (width p, height p)
    /\ (transform_angle p1, transform_zoom p1)
       = (transform_angle p, transform_zoom p)
    /\ style_light p1 = style_light p
    /\ id l1 = id layer
    /\ paint l1 = paint layer.
Proof.
  intros p source layer coords. cbv zeta.
  destruct (Qeq_bool (fill_extrusion_opacity (paint layer)) 0) eqn:E1.
  - rewrite draw_hidden by assumption. repeat split.
  - destruct (renderPass p) eqn:E2.
    + rewrite draw_offscreen_state by assumption.
      destruct (prepare_static p layer) as (S1 & S2 & S3 & S4 & S5 & S6).
      destruct (prepare_layer p layer) as (L1 & L2).
      rewrite S1, S2, S3, S4, S5, S6, L1, L2, E2. repeat split.
    + rewrite draw_opaque by assumption. cbn [stateOf fst snd].
      rewrite E2. repeat split.
    + rewrite draw_translucent by assumption. cbn [stateOf fst snd].
      rewrite drawExtrusionTexture_frame.
      destruct (viewportFrame layer); cbn; rewrite ?E2; repeat split.
Qed.
